(** * goauth: session-token lifecycle, shallow embedding

    Time values ([time.Time]) are modelled as [Z] nanoseconds since the Unix
    epoch in UTC, [time.Duration] as [Z] nanoseconds; [t.Add d] is [t + d],
    [t.After u] is [u < t], [t.Before u] is [t < u], [t.Sub u] is [t - u] saturated
    at the bounds of [time.Duration] ([time_Sub]).
    Every call to [CurrentTime ()] / [time.Now().UTC()] becomes an explicit
    [now] argument.  Go maps become stdpp [gmap]s, errors a sum type. *)

From stdpp Require Import base gmap strings list pretty.
From Stdlib Require Import ZArith Lia Ascii Strings.Byte.

Open Scope Z_scope.

Abbreviation Time := Z (only parsing).
Abbreviation Duration := Z (only parsing).

(** The error values of the package (the sentinel [errors.New] values of
    [part_002] and the ones built ad hoc by the handlers). *)
Inductive Err :=
| ErrKeyNotFound
| ErrInvalidKey
| ErrNotAuthSession
| ErrKeyNotString     (* "key" present in the session but not a string *)
| ErrKeyAlreadyExists (* errors.New("Key already exists") *)
| ErrRandom           (* "Can't generate random bytes ..." *)
| ErrStore (n : nat)  (* error of the gorilla session store *)
| ErrDB (n : nat).    (* error reported by the database driver *)

#[global] Instance Err_eq_dec : EqDecision Err.
Proof. solve_decision. Defined.

(** Result of a Go function returning [(T, error)]. *)
Inductive result (A : Type) :=
| Ok (a : A)
| Fail (e : Err).
Arguments Ok {A} a.
Arguments Fail {A} e.

(** ** part_002: GenRandomBase64

    [securecookie.GenerateRandomKey(length)] fills [make([]byte, length)]
    with [io.ReadFull(rand.Reader, k)] and returns [nil] when the read
    fails.  The entropy source is an input: [None] when the read fails,
    [Some f] when it delivers byte [f i] at position [i].  [make] panics
    for a length above [maxAlloc] (see [RandomBytes]); this function is
    described for the lengths up to it, the only ones for which it returns. *)

Definition GenerateRandomKey (reader : option (nat -> byte)) (length : Z)
  : option (list byte) :=
  match reader with
  | None => None
  | Some f => Some (map f (seq 0 (Z.to_nat length)))
  end.

Definition DefaultRandomByteLength : Z := 48.
Definition DefaultKeyLength : Z := 64.

(** [base64.URLEncoding]: URL-safe alphabet, padded with '='. *)
Definition URLAlphabet : string :=
  "ABCDEFGHIJKLMNOPQRSTUVWXYZabcdefghijklmnopqrstuvwxyz0123456789-_".

Definition enc64 (i : N) : Ascii.ascii :=
  match String.get (N.to_nat i) URLAlphabet with
  | Some c => c
  | None => "="%char
  end.

Definition padChar : Ascii.ascii := "="%char.

Fixpoint EncodeToString (src : list byte) : string :=
  match src with
  | a :: b :: c :: rest =>
      let v := (Byte.to_N a * 65536 + Byte.to_N b * 256 + Byte.to_N c)%N in
      String (enc64 (v / 262144)) (String (enc64 ((v / 4096) mod 64))
        (String (enc64 ((v / 64) mod 64)) (String (enc64 (v mod 64))
          (EncodeToString rest))))
  | [a; b] =>
      let v := (Byte.to_N a * 65536 + Byte.to_N b * 256)%N in
      String (enc64 (v / 262144)) (String (enc64 ((v / 4096) mod 64))
        (String (enc64 ((v / 64) mod 64)) (String padChar EmptyString)))
  | [a] =>
      let v := (Byte.to_N a * 65536)%N in
      String (enc64 (v / 262144)) (String (enc64 ((v / 4096) mod 64))
        (String padChar (String padChar EmptyString)))
  | [] => EmptyString
  end.

Definition GenRandomBase64 (reader : option (nat -> byte)) (n : Z) : result string :=
  let n := if n <=? 0 then DefaultRandomByteLength else n in
  match GenerateRandomKey reader n with
  | None => Fail ErrRandom
  | Some b => Ok (EncodeToString b)
  end.

Section Goauth.

(** [UserKeyType] is [interface{}]; the in-memory handler compares users
    with Go's [==], so user keys carry decidable equality. *)
Context {User : Type} `{!EqDecision User}.

(** ** part_002: SessionKeyData and the validity predicate *)

Record SessionKeyData := NewSessionKeyData {
  SKD_User : User;
  CreationTime : Time;
  ValidUntil : Time
}.

(** [CurrentTimeKeyData user validDuration], with [now = CurrentTime()]. *)
Definition CurrentTimeKeyData (now : Time) (user : User) (validDuration : Duration)
  : SessionKeyData :=
  let validUntil := now + validDuration in
  NewSessionKeyData user now validUntil.

(** [KeyInvalid now validUntil = now.After(validUntil)]. *)
Definition KeyInvalid (now validUntil : Time) : bool := validUntil <? now.

(** [KeyValid now validUntil = !KeyInvalid(now, validUntil)]. *)
Definition KeyValid (now validUntil : Time) : bool := negb (KeyInvalid now validUntil).

(** ** part_002: the SessionHandler interface

    Every method that consults the clock receives [now]; every method
    returns the new handler state (the decorator mutates its cache even on
    [GetData]). *)

Class SessionHandler (P : Type) := {
  GetData : P -> string -> P * result SessionKeyData;
  CreateEntry : Time -> P -> User -> string -> Duration -> P * result SessionKeyData;
  DeleteEntriesForUser : P -> User -> P * result Z;
  DeleteInvalidKeys : Time -> P -> P * result Z;
  DeleteKey : P -> string -> P * option Err
}.

(** ** part_000: InMemoryHandler

    The handler state is the map [keys]; the RW mutex only serialises the
    operations, which are therefore modelled as sequential state updates. *)

Definition IM_GetData (h : gmap string SessionKeyData) (key : string)
  : gmap string SessionKeyData * result SessionKeyData :=
  match h !! key with
  | Some value => (h, Ok value)
  | None => (h, Fail ErrKeyNotFound)
  end.

Definition IM_CreateEntry (now : Time) (h : gmap string SessionKeyData) (user : User)
    (key : string) (validDuration : Duration)
  : gmap string SessionKeyData * result SessionKeyData :=
  match h !! key with
  | Some _ => (h, Fail ErrKeyAlreadyExists)
  | None =>
      let data := CurrentTimeKeyData now user validDuration in
      (<[key := data]> h, Ok data)
  end.

Definition IM_DeleteEntriesForUser (h : gmap string SessionKeyData) (user : User)
  : gmap string SessionKeyData * result Z :=
  let h' := filter (fun kv : string * SessionKeyData => ~ (SKD_User kv.2 = user)) h in
  (h', Ok (Z.of_nat (size h) - Z.of_nat (size h'))).

Definition IM_DeleteInvalidKeys (now : Time) (h : gmap string SessionKeyData)
  : gmap string SessionKeyData * result Z :=
  let h' := filter (fun kv : string * SessionKeyData =>
                      KeyInvalid now (ValidUntil kv.2) = false) h in
  (h', Ok (Z.of_nat (size h) - Z.of_nat (size h'))).

(** [DeleteKey] always returns [nil], modelled as [None]. *)
Definition IM_DeleteKey (h : gmap string SessionKeyData) (key : string)
  : gmap string SessionKeyData * option Err :=
  (delete key h, None).

#[global] Instance InMemoryHandler : SessionHandler (gmap string SessionKeyData) := {
  GetData := IM_GetData;
  CreateEntry := IM_CreateEntry;
  DeleteEntriesForUser := IM_DeleteEntriesForUser;
  DeleteInvalidKeys := IM_DeleteInvalidKeys;
  DeleteKey := IM_DeleteKey
}.

(** ** part_002: SessionController.ValidateSession

    The gorilla session is reduced to what the function reads from it: the
    outcome of [store.Get] and the value stored under [SessionKey].  The
    function returns the handler state, the data (or the error) and the new
    [Options.MaxAge] ([None] when it is left untouched). *)

Inductive SessionValue :=
| SVAbsent             (* no value under "key" *)
| SVString (s : string)
| SVOther.             (* a value of another dynamic type *)

(** [t.Sub(u)] saturates at the bounds of [time.Duration] (int64
    nanoseconds). *)
Definition maxDuration : Duration := 2 ^ 63 - 1.
Definition minDuration : Duration := - 2 ^ 63.

Definition time_Sub (t u : Time) : Duration :=
  Z.max minDuration (Z.min maxDuration (t - u)).

Definition ValidateSession {P} `{!SessionHandler P} (c : P) (now : Time)
    (store_get : result SessionValue) : P * result SessionKeyData * option Z :=
  match store_get with
  | Fail e => (c, Fail e, None)
  | Ok SVAbsent => (c, Fail ErrNotAuthSession, None)
  | Ok SVOther => (c, Fail ErrKeyNotString, None)
  | Ok (SVString key) =>
      let '(c', r) := GetData c key in
      match r with
      | Fail e => (c', Fail e, None)
      | Ok info =>
          if KeyInvalid now (ValidUntil info) then (c', Fail ErrInvalidKey, Some (-1))
          else
            let durationLeft := time_Sub (ValidUntil info) now in
            (c', Ok info, Some (Z.quot durationLeft 1000000000))
      end
  end.

(** ** memcached.go: MemcachedSessionHandler (first version of the file)

    The memcached server is the map [Client] from memcached keys to stored
    items; an item expiring after [Expiration] seconds, or being evicted, is
    the removal of its key ([mc_expire]).  The client is assumed reachable:
    it stores what [Client.Set] sends under a legal key (a record's JSON
    form is assumed to fit the server's item size limit) and removes what
    [Client.Delete] names.
    gomemcache refuses an illegal key ([legalKey]) without contacting the
    server: [Set] and [Delete] then do nothing (the code only logs the
    error), and [Get] answers [ErrMalformedKey], upon which [GetData]
    returns the parent's answer without caching it.  Since no illegal key
    is ever stored, [Client] has none ([legal_client], preserved by every
    operation), and the model's [Get], a lookup, answers a miss for it; the
    miss path then reaches [setMemcached], which does not store it, so the
    two behaviours coincide.
    [handler.r] is a [*rand.Rand]; its successive [Int()] outputs are the
    arbitrary sequence [r], [rpos] counting the draws already made. *)

(** [fmt.Sprintf("%v", user)]. *)
Context (userStr : User -> string).

(** The JSON object [{u, c, v}] written by [formatJSONData]; the times are
    stored in the layout "2006-01-02 15:04:05", i.e. to whole seconds, which
    we keep as the number of seconds since the epoch. *)
(** gomemcache's [legalKey]: at most 250 bytes, none of them a space, a
    control character or DEL. *)
Definition legalKey (key : string) : bool :=
  (String.length key <=? 250)%nat &&
  forallb (fun c => negb ((nat_of_ascii c <=? 32)%nat || (nat_of_ascii c =? 127)%nat))
    (String.list_ascii_of_string key).

Record CacheItem := MkCacheItem {
  item_u : string;
  item_c : Z;
  item_v : Z
}.

Record MemcachedSessionHandler (P : Type) := MkMemcached {
  Parent : P;
  Client : gmap string CacheItem;
  SessionPrefix : string;
  ConvertUser : string -> option User;
  currentSessionKeyIdentifier : nat;
  r : nat -> nat;
  rpos : nat
}.
Arguments MkMemcached {P}.
Arguments Parent {P}.
Arguments Client {P}.
Arguments SessionPrefix {P}.
Arguments ConvertUser {P}.
Arguments currentSessionKeyIdentifier {P}.
Arguments r {P}.
Arguments rpos {P}.

Section Memcached.
Context {P : Type} `{!SessionHandler P}.
Implicit Types (handler : MemcachedSessionHandler P).

Definition set_Parent handler (p : P) : MemcachedSessionHandler P :=
  MkMemcached p (Client handler) (SessionPrefix handler) (ConvertUser handler)
    (currentSessionKeyIdentifier handler) (r handler) (rpos handler).

Definition set_Client handler (c : gmap string CacheItem) : MemcachedSessionHandler P :=
  MkMemcached (Parent handler) c (SessionPrefix handler) (ConvertUser handler)
    (currentSessionKeyIdentifier handler) (r handler) (rpos handler).

Definition getCurrentSessionKeyIdentifier handler : nat :=
  currentSessionKeyIdentifier handler.

(** [handler.currentSessionKeyIdentifier = handler.r.Int()]. *)
Definition updateCurrentSessionKeyIdentifier handler : MemcachedSessionHandler P :=
  MkMemcached (Parent handler) (Client handler) (SessionPrefix handler)
    (ConvertUser handler) (r handler (rpos handler)) (r handler) (S (rpos handler)).

(** [fmt.Sprintf("%s%d:%s", SessionPrefix, identifier, key)]. *)
Definition formatKeyEntry handler (key : string) : string :=
  SessionPrefix handler +:+ pretty (getCurrentSessionKeyIdentifier handler) +:+ ":" +:+ key.

(** [Format("2006-01-02 15:04:05")] drops the fraction of a second. *)
Definition formatTime (t : Time) : Z := t `div` 1000000000.
Definition parseTime (s : Z) : Time := s * 1000000000.

(** [json.Marshal] of a map of strings cannot fail, so the [jsonErr]
    branch of the callers is dead. *)
Definition formatJSONData (data : SessionKeyData) : CacheItem :=
  MkCacheItem (userStr (SKD_User data)) (formatTime (CreationTime data))
    (formatTime (ValidUntil data)).

Definition parseJSONData handler (b : CacheItem) : option SessionKeyData :=
  match ConvertUser handler (item_u b) with
  | None => None
  | Some user =>
      Some (NewSessionKeyData user (parseTime (item_c b)) (parseTime (item_v b)))
  end.

Definition setMemcached handler (key : string) (value : SessionKeyData)
  : MemcachedSessionHandler P :=
  let memcachedKey := formatKeyEntry handler key in
  if legalKey memcachedKey
  then set_Client handler (<[memcachedKey := formatJSONData value]> (Client handler))
  else handler.

Definition MC_GetData handler (key : string)
  : MemcachedSessionHandler P * result SessionKeyData :=
  let memcachedKey := formatKeyEntry handler key in
  match Client handler !! memcachedKey with
  | None =>
      (* ErrCacheMiss: ask the parent, cache its answer *)
      let '(p', parentRes) := GetData (Parent handler) key in
      let handler1 := set_Parent handler p' in
      match parentRes with
      | Fail e => (handler1, Fail e)
      | Ok parentData => (setMemcached handler1 key parentData, Ok parentData)
      end
  | Some item =>
      match parseJSONData handler item with
      | None =>
          let '(p', res) := GetData (Parent handler) key in
          (set_Parent handler p', res)
      | Some data => (handler, Ok data)
      end
  end.

Definition MC_CreateEntry (now : Time) handler (user : User) (key : string)
    (validDuration : Duration) : MemcachedSessionHandler P * result SessionKeyData :=
  let '(p', parentRes) := CreateEntry now (Parent handler) user key validDuration in
  let handler1 := set_Parent handler p' in
  match parentRes with
  | Fail e => (handler1, Fail e)
  | Ok data => (setMemcached handler1 key data, Ok data)
  end.

Definition MC_DeleteEntriesForUser handler (user : User)
  : MemcachedSessionHandler P * result Z :=
  let handler1 := updateCurrentSessionKeyIdentifier handler in
  let '(p', res) := DeleteEntriesForUser (Parent handler1) user in
  (set_Parent handler1 p', res).

Definition MC_DeleteInvalidKeys (now : Time) handler
  : MemcachedSessionHandler P * result Z :=
  let '(p', res) := DeleteInvalidKeys now (Parent handler) in
  (set_Parent handler p', res).

Definition MC_DeleteKey handler (key : string) : MemcachedSessionHandler P * option Err :=
  let memcachedKey := formatKeyEntry handler key in
  let handler1 :=
    if legalKey memcachedKey
    then set_Client handler (delete memcachedKey (Client handler))
    else handler in
  let '(p', err) := DeleteKey (Parent handler1) key in
  (set_Parent handler1 p', err).

#[global] Instance MemcachedHandler : SessionHandler (MemcachedSessionHandler P) := {
  GetData := MC_GetData;
  CreateEntry := MC_CreateEntry;
  DeleteEntriesForUser := MC_DeleteEntriesForUser;
  DeleteInvalidKeys := MC_DeleteInvalidKeys;
  DeleteKey := MC_DeleteKey
}.

(** The memcached server dropping the entry stored under [k] (its
    [Expiration] elapsed, or it was evicted). *)
Definition mc_expire (k : string) handler : MemcachedSessionHandler P :=
  set_Client handler (delete k (Client handler)).

End Memcached.

(** [NewMemcachedSessionHandler parent client]: the identifier is the first
    draw of the freshly seeded generator, memcached starts empty. *)
Definition NewMemcachedSessionHandler {P} (parent : P) (r : nat -> nat)
    (convertUser : string -> option User) : MemcachedSessionHandler P :=
  MkMemcached parent ∅ "skey:" convertUser (r 0%nat) r 1%nat.

(** Operations on a memcached decorator over the in-memory handler, with
    the clock values they read. *)
Inductive MCOp :=
| OpGet (key : string)
| OpCreate (now : Time) (user : User) (key : string) (validDuration : Duration)
| OpRevoke (user : User)
| OpSweep (now : Time)
| OpDeleteKey (key : string)
| OpExpire (memcachedKey : string).

Definition mc_step (st : MemcachedSessionHandler (gmap string SessionKeyData)) (op : MCOp)
  : MemcachedSessionHandler (gmap string SessionKeyData) :=
  match op with
  | OpGet key => (MC_GetData st key).1
  | OpCreate now user key d => (MC_CreateEntry now st user key d).1
  | OpRevoke user => (MC_DeleteEntriesForUser st user).1
  | OpSweep now => (MC_DeleteInvalidKeys now st).1
  | OpDeleteKey key => (MC_DeleteKey st key).1
  | OpExpire k => mc_expire k st
  end.

Definition mc_run (st : MemcachedSessionHandler (gmap string SessionKeyData))
    (ops : list MCOp) : MemcachedSessionHandler (gmap string SessionKeyData) :=
  fold_left mc_step ops st.

(** The identifier the next revocation draws is fresh: no key stored in
    memcached carries it. *)
Definition fresh_draw {P} (st : MemcachedSessionHandler P) : Prop :=
  forall key, Client st !! formatKeyEntry (updateCurrentSessionKeyIdentifier st) key = None.

(** Every revocation of the trace draws a fresh identifier. *)
Fixpoint run_fresh (st : MemcachedSessionHandler (gmap string SessionKeyData))
    (ops : list MCOp) : Prop :=
  match ops with
  | [] => True
  | op :: rest =>
      (match op with OpRevoke _ => fresh_draw st | _ => True end) /\
      run_fresh (mc_step st op) rest
  end.

(** The trace never creates an entry for [tok]. *)
Definition no_create (tok : string) (ops : list MCOp) : Prop :=
  Forall (fun op => match op with OpCreate _ _ key _ => key <> tok | _ => True end) ops.

(** [tok] is absent from the parent and unreachable in memcached. *)
Definition hidden (tok : string) (st : MemcachedSessionHandler (gmap string SessionKeyData)) : Prop :=
  Parent st !! tok = None /\ Client st !! formatKeyEntry st tok = None.

(** Every key stored in memcached is legal for gomemcache. *)
Definition legal_client {P} (st : MemcachedSessionHandler P) : Prop :=
  forall k item, Client st !! k = Some item -> legalKey k = true.

(** ** auth.go: CheckSessionFromTime (DBConnector helper), [now] explicit *)

Definition CheckSessionFromTime (now : Time) (validDuration : Duration)
    (referenceTime : Time) : bool * Time :=
  let validUntil := referenceTime + validDuration in
  (now <? validUntil, now).

(** ** What the database keeps of the values the code writes

    [column_time t] is the value a [DATETIME] / [TIMESTAMP] column holds,
    and returns, for the [time.Time] [t] written into it: the schema's
    precision, whole seconds for MySQL's [DATETIME], microseconds for
    Postgres' [TIMESTAMP].  [same_key k k'] tells whether two [session_key]
    values are equal under the column's collation (case-insensitively under
    MySQL's default one), as its UNIQUE / PRIMARY KEY constraint compares
    them. *)
Class SQLColumns := {
  column_time : Time -> Time;
  same_key : string -> string -> bool;
  same_key_refl : forall k, same_key k k = true
}.

Context {SC : SQLColumns}.

(** ** sql.go: SQLConnector session validation (the DBConnector API)

    The [user_sessions] table, keyed by its UNIQUE [session_key].  The
    driver is assumed to return [time.Time] values ([parseTime=true]), so
    [TimeFromScanType] is the identity.  The outcome of the [UPDATE]
    statement is an input: [Some e] when the driver reports [e]. *)

Record SessionRow := MkSessionRow {
  user_id : User;
  login_time : Time;
  last_seen : Time
}.

Inductive Column := login_time_col | last_seen_col.

Definition column_value (row : SessionRow) (c : Column) : Time :=
  match c with
  | login_time_col => login_time row
  | last_seen_col => last_seen row
  end.

(** [UPDATE user_sessions SET last_seen=? WHERE session_key = ?]: the
    column keeps [now] at its precision. *)
Definition exec_UpdateLastSeen (updateErr : option Err) (now : Time) (checkKey : string)
    (db : gmap string SessionRow) : gmap string SessionRow * option Err :=
  match updateErr with
  | Some e => (db, Some e)
  | None =>
      (alter (fun row => MkSessionRow (user_id row) (login_time row) (column_time now))
         checkKey db, None)
  end.

(** Returns the new table, the user id ([None] is Go's [nil]) and the error. *)
Definition isValidSessionFromColumn (now : Time) (updateErr : option Err)
    (db : gmap string SessionRow) (validDuration : Duration) (checkKey : string)
    (columnName : Column) : gmap string SessionRow * option User * option Err :=
  match db !! checkKey with
  | None => (db, None, None)                       (* sql.ErrNoRows *)
  | Some row =>
      let id := user_id row in
      let checkTime := column_value row columnName in
      let '(ok, now') := CheckSessionFromTime now validDuration checkTime in
      if ok then
        let '(db', e) := exec_UpdateLastSeen updateErr now' checkKey db in
        match e with
        | Some updateErr' => (db', Some id, Some updateErr')
        | None => (db', Some id, None)
        end
      else (db, None, None)
  end.

Definition IsValidSession (now : Time) (updateErr : option Err)
    (db : gmap string SessionRow) (validDuration : Duration) (checkKey : string) :=
  isValidSessionFromColumn now updateErr db validDuration checkKey login_time_col.

Definition IsValidSessionLastSeen (now : Time) (updateErr : option Err)
    (db : gmap string SessionRow) (validDuration : Duration) (checkKey : string) :=
  isValidSessionFromColumn now updateErr db validDuration checkKey last_seen_col.

(** auth.go: [MYSQLConnector.IsValidSession], the first MySQL connector. *)
Definition MYSQL_IsValidSession (now : Time) (updateErr : option Err)
    (db : gmap string SessionRow) (validDuration : Duration) (checkKey : string)
  : gmap string SessionRow * option User * option Err :=
  match db !! checkKey with
  | None => (db, None, None)
  | Some row =>
      let id := user_id row in
      let validUntil := login_time row + validDuration in
      if now <? validUntil then
        let '(db', e) := exec_UpdateLastSeen updateErr now checkKey db in
        match e with
        | Some updateErr' => (db', Some id, Some updateErr')
        | None => (db', Some id, None)
        end
      else (db, None, None)
  end.

(** ** sql.go: SQLSessionHandler.CreateEntry

    The table [(user_id, session_key, created, valid_until)], keyed by its
    PRIMARY KEY [session_key].  The [INSERT] fails when the driver reports
    [execErr], or on a duplicate key, a stored key equal to [key] under the
    column's collation (the driver's duplicate-key error, MySQL's 1062).
    The row keeps both times at the columns' precision; the user column
    holds the driver's encoding of [user], which the model keeps as the
    value itself.  The function returns the record it computed, not the
    row. *)

Definition SQL_CreateEntry (now : Time) (execErr : option Err)
    (db : gmap string SessionKeyData) (user : User) (key : string)
    (validDuration : Duration) : gmap string SessionKeyData * result SessionKeyData :=
  let data := CurrentTimeKeyData now user validDuration in
  match execErr with
  | Some e => (db, Fail e)
  | None =>
      if existsb (fun kv : string * SessionKeyData => same_key kv.1 key) (map_to_list db)
      then (db, Fail (ErrDB 1062))
      else (<[key := NewSessionKeyData user (column_time (CreationTime data))
                                        (column_time (ValidUntil data))]> db, Ok data)
  end.

(** ** part_002: SessionController and AddKey *)

Record SessionController (P : Type) := MkSessionController {
  Handler : P;
  NumBytes : Z;
  SessionName : string
}.
Arguments MkSessionController {P}.
Arguments Handler {P}.
Arguments NumBytes {P}.
Arguments SessionName {P}.

Definition NewSessionController {P} (h : P) : SessionController P :=
  MkSessionController h DefaultRandomByteLength "user-auth".

(** Returns the controller, and the data with the key or the error. *)
Definition AddKey {P} `{!SessionHandler P} (now : Time) (reader : option (nat -> byte))
    (c : SessionController P) (user : User) (validDuration : Duration)
  : SessionController P * result (SessionKeyData * string) :=
  match GenRandomBase64 reader (NumBytes c) with
  | Fail genErr => (c, Fail genErr)
  | Ok key =>
      let '(h', res) := CreateEntry now (Handler c) user key validDuration in
      let c' := MkSessionController h' (NumBytes c) (SessionName c) in
      match res with
      | Fail insertErr => (c', Fail insertErr)
      | Ok data => (c', Ok (data, key))
      end
  end.

End Goauth.

Arguments SessionKeyData : clear implicits.
Arguments MkMemcached {User P}.
Arguments Parent {User P}.
Arguments Client {User P}.
Arguments SessionPrefix {User P}.
Arguments ConvertUser {User P}.
Arguments currentSessionKeyIdentifier {User P}.
Arguments r {User P}.
Arguments rpos {User P}.
Arguments MkSessionController {P}.
Arguments Handler {P}.
Arguments NumBytes {P}.
Arguments SessionName {P}.

(** ** auth.go: RandomBytes, RandomBase64 and DefaultSessionKeyGenerator

    [make([]byte, n)] panics for [n < 0] and for [n > maxAlloc], the
    runtime's allocation limit ([1 << 48] on 64-bit Linux); an allocation
    below the limit is assumed to succeed.  [crypto/rand.Read] either fills
    the slice or reports an error.  The reader is [Ok f] when it delivers
    byte [f i] at position [i], [Fail e] when it reports [e]; a call that
    may panic has an [outcome]. *)
Inductive outcome (A : Type) :=
| Returns (a : A)
| Panics.
Arguments Returns {A} a.
Arguments Panics {A}.

Definition maxAlloc : Z := 2 ^ 48.

Definition RandomBytes (reader : result (nat -> byte)) (n : Z) : outcome (result (list byte)) :=
  if (n <? 0) || (maxAlloc <? n) then Panics
  else
    match reader with
    | Fail err => Returns (Fail err)
    | Ok f => Returns (Ok (map f (seq 0 (Z.to_nat n))))
    end.

Definition RandomBase64 (reader : result (nat -> byte)) (n : Z) : outcome (result string) :=
  match RandomBytes reader n with
  | Panics => Panics
  | Returns (Fail err) => Returns (Fail err)
  | Returns (Ok b) => Returns (Ok (EncodeToString b))
  end.

(** [DefaultSessionKeyGenerator.GenerateSessionKey]. *)
Definition GenerateSessionKey (reader : result (nat -> byte)) : outcome (result string) :=
  RandomBase64 reader 96.

Section Controller.
Context {User : Type}.

(** ** part_002: CreateAuthSession and EndSession

    As for [ValidateSession], the gorilla session is the outcome of
    [store.Get]; what the functions write into it is returned: the new
    value under [SessionKey] and the new [Options.MaxAge]. *)

Definition CreateAuthSession {P} `{!SessionHandler (User:=User) P} (now : Time)
    (reader : option (nat -> byte)) (c : SessionController P)
    (store_get : result SessionValue) (user : User) (validDuration : Duration)
  : SessionController P * result (SessionKeyData User * string * (SessionValue * Z)) :=
  match store_get with
  | Fail err => (c, Fail err)
  | Ok _ =>
      let '(c', res) := AddKey now reader c user validDuration in
      match res with
      | Fail err => (c', Fail err)
      | Ok (data, key) => (c', Ok (data, key, (SVString key, Z.quot validDuration 1000000000)))
      end
  end.

(** Returns the controller, the error and the new [Options.MaxAge]. *)
Definition EndSession {P} `{!SessionHandler (User:=User) P} (c : SessionController P)
    (store_get : result SessionValue) : SessionController P * option Err * option Z :=
  match store_get with
  | Fail err => (c, Some err, None)
  | Ok SVAbsent => (c, None, None)
  | Ok SVOther => (c, Some ErrKeyNotString, None)
  | Ok (SVString key) =>
      let '(h', err) := DeleteKey (Handler c) key in
      (MkSessionController h' (NumBytes c) (SessionName c), err, Some (-1))
  end.

(** ** sql.go / mysql.go: SQLConnector.RemoveSessionForUser *)

Context `{!EqDecision User}.

(** [DELETE FROM user_sessions WHERE user_id = ?]. *)
Definition RemoveSessionForUser (db : gmap string (SessionRow (User:=User))) (userID : User)
  : gmap string SessionRow :=
  filter (fun kv : string * SessionRow => ~ (user_id kv.2 = userID)) db.

End Controller.

(** ** Token alphabet, and concrete inputs used by the examples *)

Definition url_safe (s : string) : Prop :=
  Forall (fun c => In c (String.list_ascii_of_string URLAlphabet)) (String.list_ascii_of_string s).

Definition rec0 : SessionKeyData nat := NewSessionKeyData 7%nat 0 100.
Definition h0 : gmap string (SessionKeyData nat) := {["k" := rec0]}.
Definition row0 : SessionRow (User:=nat) := MkSessionRow 7%nat 0 40.
Definition db0 : gmap string (SessionRow (User:=nat)) := {["k" := row0]}.

Definition draws : nat -> nat := fun i => match i with 1%nat => 1%nat | _ => 0%nat end.
Definition recA : SessionKeyData string := NewSessionKeyData "alice" 0 100.
Definition mcEmpty : MemcachedSessionHandler (gmap string (SessionKeyData string)) :=
  NewMemcachedSessionHandler ∅ draws Some.
Definition mcA : MemcachedSessionHandler (gmap string (SessionKeyData string)) :=
  NewMemcachedSessionHandler {["k" := recA]} draws Some.

Definition recT : SessionKeyData nat := NewSessionKeyData 7%nat 0 3600000000000.
Definition ctrl0 : SessionController (gmap string (SessionKeyData nat)) :=
  MkSessionController ∅ 3 "user-session".

(** MySQL's columns: the driver sends a [time.Time] with its microseconds
    and the server rounds them to the whole seconds of [DATETIME] (for
    instants after the epoch); [session_key] compares under the default
    case-insensitive collation (for keys without trailing spaces, as the
    generated ones are). *)
Definition mysql_datetime (t : Time) : Time :=
  ((t `div` 1000 + 500000) `div` 1000000) * 1000000000.

Definition fold_case (c : Ascii.ascii) : Ascii.ascii :=
  let n := Ascii.nat_of_ascii c in
  if (65 <=? n)%nat && (n <=? 90)%nat then Ascii.ascii_of_nat (n + 32) else c.

Definition mysql_same_key (k k' : string) : bool :=
  bool_decide (map fold_case (String.list_ascii_of_string k)
               = map fold_case (String.list_ascii_of_string k')).

Definition MySQLColumns : SQLColumns := {|
  column_time := mysql_datetime;
  same_key := mysql_same_key;
  same_key_refl := fun k => bool_decide_eq_true_2 _ eq_refl
|}.

Example EncodeToString_Man :
  EncodeToString [Byte.x4d; Byte.x61; Byte.x6e] = "TWFu"%string.
Proof. reflexivity. Qed.
Example EncodeToString_Ma :
  EncodeToString [Byte.x4d; Byte.x61] = "TWE="%string.
Proof. reflexivity. Qed.
Example EncodeToString_url :
  EncodeToString [Byte.xfb; Byte.xff] = "-_8="%string.
Proof. reflexivity. Qed.

(** * Properties *)

Section Claims.
Context {User : Type} `{!EqDecision User}.
Context {SC : SQLColumns}.
Implicit Types (h : gmap string (SessionKeyData User)).

Lemma IM_sweep_removes_invalid h tok (rec : SessionKeyData User) tsweep :
  h !! tok = Some rec -> KeyInvalid tsweep (ValidUntil rec) = true ->
  (IM_DeleteInvalidKeys tsweep h).1 !! tok = None.
Proof.
  intros Hl Hinv. simpl. apply map_lookup_filter_None_2. right.
  intros x Hx. rewrite Hl in Hx. injection Hx as <-. simpl. congruence.
Qed.

Lemma IM_sweep_keeps_valid h tok (rec : SessionKeyData User) tsweep :
  h !! tok = Some rec -> KeyInvalid tsweep (ValidUntil rec) = false ->
  (IM_DeleteInvalidKeys tsweep h).1 !! tok = Some rec.
Proof.
  intros Hl Hv. simpl. by apply map_lookup_filter_Some_2.
Qed.

(** C1: through [ValidateSession] over the in-memory handler, a token whose
    record exists but is expired fails with [ErrInvalidKey]; a token with no
    record fails with [ErrKeyNotFound]; once the sweep [DeleteInvalidKeys]
    has removed an expired record, the same token fails with
    [ErrKeyNotFound]. *)
Theorem C1_validate_expired_then_swept :
  (forall h tok (rec : SessionKeyData User) now,
     h !! tok = Some rec -> KeyInvalid now (ValidUntil rec) = true ->
     (ValidateSession h now (Ok (SVString tok))).1.2 = Fail ErrInvalidKey) /\
  (forall h tok now, h !! tok = None ->
     (ValidateSession h now (Ok (SVString tok))).1.2 = Fail ErrKeyNotFound) /\
  (forall h tok (rec : SessionKeyData User) tsweep now,
     h !! tok = Some rec -> KeyInvalid tsweep (ValidUntil rec) = true ->
     (IM_DeleteInvalidKeys tsweep h).1 !! tok = None /\
     (ValidateSession (IM_DeleteInvalidKeys tsweep h).1 now (Ok (SVString tok))).1.2
       = Fail ErrKeyNotFound).
Proof.
  split; [|split].
  - intros h tok rec now Hl Hinv. cbn. unfold IM_GetData. rewrite Hl, Hinv. done.
  - intros h tok now Hl. cbn. unfold IM_GetData. rewrite Hl. done.
  - intros h tok rec tsweep now Hl Hinv.
    pose proof (IM_sweep_removes_invalid h tok rec tsweep Hl Hinv) as Hgone.
    split; [exact Hgone|].
    unfold ValidateSession. cbn [GetData InMemoryHandler]. unfold IM_GetData.
    rewrite Hgone. done.
Qed.

(** C3 (amended): [KeyValid]/[KeyInvalid] decide validity as
    [now <= validUntil] / [validUntil < now], while [CheckSessionFromTime]
    of the DBConnector API decides it as the strict [now < referenceTime +
    validDuration]. *)
Theorem C3_validity_predicates (now validUntil : Time) :
  KeyValid now validUntil = (now <=? validUntil) /\
  KeyInvalid now validUntil = (validUntil <? now) /\
  (forall (validDuration referenceTime : Z),
     (CheckSessionFromTime now validDuration referenceTime).1
       = (now <? referenceTime + validDuration)).
Proof.
  unfold KeyValid, KeyInvalid. split; [|split; [done|]].
  - rewrite Z.ltb_antisym. by rewrite negb_involutive.
  - done.
Qed.

(** The [INSERT] of [SQL_CreateEntry] meets a duplicate exactly when a
    stored key equals [key] under the column's collation. *)
Lemma SQL_duplicate_iff (db : gmap string (SessionKeyData User)) (key : string) :
  existsb (fun kv : string * SessionKeyData User => same_key kv.1 key) (map_to_list db) = true
  <-> exists k' rec, db !! k' = Some rec /\ same_key k' key = true.
Proof.
  rewrite existsb_exists. split.
  - intros [[k' rec] [Hin Hs]]. exists k', rec. split; [|done].
    apply elem_of_map_to_list. by apply list_elem_of_In.
  - intros (k' & rec & Hk & Hs). exists (k', rec). split; [|done].
    apply list_elem_of_In. by apply elem_of_map_to_list.
Qed.

(** C5 (amended): the record created by the in-memory and the SQL handler
    satisfies [ValidUntil - CreationTime = validDuration], so
    [CreationTime <= ValidUntil] holds exactly when [validDuration >= 0]. *)
Theorem C5_created_interval h (now : Time) (user : User) (key : string)
    (validDuration : Duration) (execErr : option Err) :
  (forall h' data, IM_CreateEntry now h user key validDuration = (h', Ok data) ->
     ValidUntil data - CreationTime data = validDuration /\
     (CreationTime data <= ValidUntil data <-> 0 <= validDuration)) /\
  (forall h' data, SQL_CreateEntry now execErr h user key validDuration = (h', Ok data) ->
     ValidUntil data - CreationTime data = validDuration /\
     (CreationTime data <= ValidUntil data <-> 0 <= validDuration)).
Proof.
  split.
  - intros h' data. unfold IM_CreateEntry.
    destruct (h !! key); intros Heq; inversion Heq; subst; simpl; lia.
  - intros h' data. unfold SQL_CreateEntry.
    destruct execErr; [discriminate|].
    destruct (existsb _ _); intros Heq; inversion Heq; subst; simpl; lia.
Qed.

(** C8: in-memory logout ([DeleteKey]) returns no error and a following
    [GetData] of the token fails with [ErrKeyNotFound], whatever the store
    held before. *)
Theorem C8_logout_then_get_not_found h (tok : string) :
  (IM_DeleteKey h tok).2 = None /\
  (IM_GetData (IM_DeleteKey h tok).1 tok).2 = Fail ErrKeyNotFound.
Proof.
  split; [done|]. unfold IM_GetData, IM_DeleteKey. simpl.
  by rewrite lookup_delete_eq.
Qed.

(** C4 (amended): create computes the record created at [now] and valid
    until [now + validDuration].  The in-memory handler, for a token not
    yet stored, stores exactly that record under the token and returns it;
    for a stored token it fails with "Key already exists" and changes
    nothing.  The SQL handler (driver reporting no other error), for a
    token that no stored key equals under the column's collation, returns
    exactly that record but stores it with both times at the precision of
    its time columns; when such a key is stored, the [INSERT] fails with
    the duplicate-key error and the table is unchanged.  The memcached
    decorator returns what its parent's create returns and leaves the
    parent as that create leaves it. *)
Theorem C4_create_fresh_token h (now : Time) (user : User) (key : string)
    (validDuration : Duration) :
  let data := NewSessionKeyData user now (now + validDuration) in
  (h !! key = None ->
     IM_CreateEntry now h user key validDuration = (<[key := data]> h, Ok data)) /\
  (forall old, h !! key = Some old ->
     IM_CreateEntry now h user key validDuration = (h, Fail ErrKeyAlreadyExists)) /\
  (forall db : gmap string (SessionKeyData User),
     (forall k' rec, db !! k' = Some rec -> same_key k' key = false) ->
     SQL_CreateEntry now None db user key validDuration =
       (<[key := NewSessionKeyData user (column_time now) (column_time (now + validDuration))]> db,
        Ok data)) /\
  (forall (db : gmap string (SessionKeyData User)) k' rec,
     db !! k' = Some rec -> same_key k' key = true ->
     SQL_CreateEntry now None db user key validDuration = (db, Fail (ErrDB 1062))) /\
  (forall P (HP : SessionHandler (User:=User) P) (userStr : User -> string)
      (mc : MemcachedSessionHandler P),
     Parent (MC_CreateEntry userStr now mc user key validDuration).1
       = (CreateEntry now (Parent mc) user key validDuration).1 /\
     (MC_CreateEntry userStr now mc user key validDuration).2
       = (CreateEntry now (Parent mc) user key validDuration).2).
Proof.
  intros data. split; [|split; [|split; [|split]]].
  - intros Hnone. unfold IM_CreateEntry. by rewrite Hnone.
  - intros old Hsome. unfold IM_CreateEntry. by rewrite Hsome.
  - intros db Hfresh. unfold SQL_CreateEntry.
    destruct (existsb _ (map_to_list db)) eqn:Hex; [|done].
    apply SQL_duplicate_iff in Hex as (k' & rec & Hk & Hsame).
    by rewrite (Hfresh k' rec Hk) in Hsame.
  - intros db k' rec Hk Hsame. unfold SQL_CreateEntry.
    replace (existsb _ (map_to_list db)) with true; [done|].
    symmetry. apply SQL_duplicate_iff. eauto.
  - intros P HP userStr mc. unfold MC_CreateEntry.
    destruct (CreateEntry now (Parent mc) user key validDuration) as [p' [d|e]]; [|done].
    unfold setMemcached. by destruct (legalKey _).
Qed.

(** C7: in both connectors, when the row of [checkKey] is found and still
    valid but the [UPDATE] of [last_seen] fails with [e], the validation
    returns the user id together with [e]. *)
Theorem C7_touch_failure_keeps_user (now : Time) (e : Err)
    (db : gmap string (SessionRow (User:=User))) (validDuration : Duration)
    (checkKey : string) (row : SessionRow) :
  db !! checkKey = Some row ->
  (forall columnName,
     (CheckSessionFromTime now validDuration (column_value row columnName)).1 = true ->
     isValidSessionFromColumn now (Some e) db validDuration checkKey columnName
       = (db, Some (user_id row), Some e)) /\
  (now < login_time row + validDuration ->
     MYSQL_IsValidSession now (Some e) db validDuration checkKey
       = (db, Some (user_id row), Some e)).
Proof.
  intros Hrow. split.
  - intros col Hok. unfold isValidSessionFromColumn. rewrite Hrow.
    unfold CheckSessionFromTime in *. simpl in Hok |- *. by rewrite Hok.
  - intros Hlt. unfold MYSQL_IsValidSession. rewrite Hrow.
    apply Z.ltb_lt in Hlt. by rewrite Hlt.
Qed.

(** C6 (amended): only the DBConnector API offers the two policies:
    [IsValidSession] measures the lifetime from [login_time],
    [IsValidSessionLastSeen] from [last_seen], and a successful validation
    writes [now] into [last_seen], which keeps it at the column's precision
    (leaving [login_time] alone), so the [LastSeen] variant slides.
    [SessionController.ValidateSession] has a single policy
    ([now <= ValidUntil]) and writes nothing itself: whatever the handler,
    its state afterwards is the one the handler's [GetData] leaves (the
    store is unchanged when no session key is read), so over the in-memory
    handler the store is unchanged. *)
Theorem C6_two_policies_only_in_connector (now : Time)
    (db : gmap string (SessionRow (User:=User))) (validDuration : Duration)
    (checkKey : string) (row : SessionRow) :
  db !! checkKey = Some row ->
  (IsValidSession now None db validDuration checkKey).1.2
    = (if now <? login_time row + validDuration then Some (user_id row) else None) /\
  (IsValidSessionLastSeen now None db validDuration checkKey).1.2
    = (if now <? last_seen row + validDuration then Some (user_id row) else None) /\
  (forall columnName,
     (CheckSessionFromTime now validDuration (column_value row columnName)).1 = true ->
     (isValidSessionFromColumn now None db validDuration checkKey columnName).1.1 !! checkKey
       = Some (MkSessionRow (user_id row) (login_time row) (column_time now))) /\
  (forall P (HP : SessionHandler (User:=User) P) (c : P) (sv : result SessionValue),
     (ValidateSession c now sv).1.1
       = match sv with Ok (SVString key) => (GetData c key).1 | _ => c end) /\
  (forall h (sv : result SessionValue), (ValidateSession h now sv).1.1 = h).
Proof.
  intros Hrow. split; [|split; [|split; [|split]]].
  - unfold IsValidSession, isValidSessionFromColumn. rewrite Hrow. simpl.
    destruct (now <? login_time row + validDuration); done.
  - unfold IsValidSessionLastSeen, isValidSessionFromColumn. rewrite Hrow. simpl.
    destruct (now <? last_seen row + validDuration); done.
  - intros col Hok. unfold isValidSessionFromColumn. rewrite Hrow.
    unfold CheckSessionFromTime in *. simpl in Hok |- *. rewrite Hok. simpl.
    by rewrite lookup_alter_eq, Hrow.
  - intros P HP c sv. unfold ValidateSession.
    destruct sv as [[|key|]|e]; try done.
    destruct (GetData c key) as [c' [info|e]]; [|done].
    by destruct (KeyInvalid now (ValidUntil info)).
  - intros h sv. unfold ValidateSession.
    destruct sv as [[|key|]|e]; try done.
    cbn [GetData InMemoryHandler]. unfold IM_GetData.
    destruct (h !! key); [|done].
    destruct (KeyInvalid now (ValidUntil s)); done.
Qed.

(** ** Token generation *)

Lemma string_get_in (n : nat) (s : string) :
  (n < String.length s)%nat ->
  exists c, String.get n s = Some c /\ In c (String.list_ascii_of_string s).
Proof.
  revert n. induction s as [|a s IH]; intros n Hn; simpl in Hn; [lia|].
  destruct n as [|n]; simpl.
  - exists a. auto.
  - destruct (IH n) as [c [Hc Hin]]; [lia|]. exists c. auto.
Qed.

Lemma enc64_url (i : N) : (i < 64)%N -> In (enc64 i) (String.list_ascii_of_string URLAlphabet).
Proof.
  intros Hi. unfold enc64.
  destruct (string_get_in (N.to_nat i) URLAlphabet) as [c [Hc Hin]].
  - change (String.length URLAlphabet) with 64%nat. lia.
  - by rewrite Hc.
Qed.

Lemma EncodeToString_length (l : list byte) :
  String.length (EncodeToString l) = (4 * ((length l + 2) / 3))%nat.
Proof.
  revert l. fix IH 1. intros [|a [|b [|c rest]]]; try reflexivity.
  cbn [EncodeToString String.length length]. rewrite IH.
  replace (S (S (S (length rest))) + 2)%nat with (1 * 3 + (length rest + 2))%nat by lia.
  rewrite Nat.div_add_l by lia. lia.
Qed.

Lemma EncodeToString_url_safe (l : list byte) :
  (length l mod 3 = 0)%nat -> url_safe (EncodeToString l).
Proof.
  revert l. fix IH 1. intros [|a [|b [|c rest]]] Hlen.
  - constructor.
  - discriminate.
  - discriminate.
  - pose proof (Byte.to_N_bounded a). pose proof (Byte.to_N_bounded b).
    pose proof (Byte.to_N_bounded c).
    unfold url_safe. cbn [EncodeToString String.list_ascii_of_string].
    constructor; [apply enc64_url; apply N.Div0.div_lt_upper_bound; lia|].
    do 3 (constructor; [apply enc64_url; apply N.mod_lt; lia|]).
    apply IH. cbn [length] in Hlen.
    replace (S (S (S (length rest)))) with (length rest + 1 * 3)%nat in Hlen by lia.
    by rewrite Nat.Div0.mod_add in Hlen.
Qed.

Lemma GenRandomBase64_default (reader : option (nat -> byte)) :
  GenRandomBase64 reader DefaultRandomByteLength =
  match reader with
  | None => Fail ErrRandom
  | Some f => Ok (EncodeToString (map f (seq 0 48)))
  end.
Proof. by destruct reader. Qed.

(** C10: for [n <= 0], [GenRandomBase64 n] behaves as [GenRandomBase64 48]:
    it only fails when the entropy source fails, and otherwise returns a
    64-character key over the URL-safe base64 alphabet; the same holds for
    the key produced by [AddKey] when [NumBytes <= 0]. *)
Theorem C10_nonpositive_length_defaults (n : Z) (reader : option (nat -> byte)) :
  n <= 0 ->
  GenRandomBase64 reader n = GenRandomBase64 reader DefaultRandomByteLength /\
  (reader = None -> GenRandomBase64 reader n = Fail ErrRandom) /\
  (forall f, reader = Some f ->
     exists key, GenRandomBase64 reader n = Ok key /\
       String.length key = 64%nat /\ url_safe key) /\
  (forall P `{!SessionHandler P} (now : Time) (c c' : SessionController P) (user : User)
      (validDuration : Duration) data key,
     NumBytes c = n ->
     AddKey now reader c user validDuration = (c', Ok (data, key)) ->
     String.length key = 64%nat /\ url_safe key).
Proof.
  intros Hn.
  assert (Hdef : GenRandomBase64 reader n = GenRandomBase64 reader DefaultRandomByteLength).
  { unfold GenRandomBase64. replace (n <=? 0) with true by (symmetry; apply Z.leb_le; lia).
    done. }
  assert (Hok : forall f, reader = Some f ->
     exists key, GenRandomBase64 reader n = Ok key /\
       String.length key = 64%nat /\ url_safe key).
  { intros f ->. rewrite Hdef, GenRandomBase64_default.
    eexists. split; [reflexivity|]. split.
    - rewrite EncodeToString_length, length_map, length_seq. reflexivity.
    - apply EncodeToString_url_safe. by rewrite length_map, length_seq. }
  split; [exact Hdef|]. split; [|split; [exact Hok|]].
  - intros ->. rewrite Hdef. reflexivity.
  - intros P HP now c c' user validDuration data key Hc Hadd.
    unfold AddKey in Hadd. rewrite Hc in Hadd.
    destruct reader as [f|].
    + destruct (Hok f eq_refl) as [key' [Hk' [Hlen Hurl]]]. rewrite Hk' in Hadd.
      destruct (CreateEntry now (Handler c) user key' validDuration) as [h' [d|e]].
      * inversion Hadd; subst. auto.
      * discriminate.
    + rewrite Hdef in Hadd. discriminate.
Qed.

Section Cache.
Context (userStr : User -> string).
Implicit Types (st : MemcachedSessionHandler (User:=User) (gmap string (SessionKeyData User))).

Lemma formatKeyEntry_inj {P} (st : MemcachedSessionHandler (User:=User) P) (k1 k2 : string) :
  formatKeyEntry st k1 = formatKeyEntry st k2 -> k1 = k2.
Proof.
  unfold formatKeyEntry. intros H.
  apply (inj (String.append _)) in H. apply (inj (String.append _)) in H.
  apply (inj (String.append _)) in H. exact H.
Qed.

Lemma formatKeyEntry_ne {P} (st : MemcachedSessionHandler (User:=User) P) (k1 k2 : string) :
  k1 <> k2 -> formatKeyEntry st k1 <> formatKeyEntry st k2.
Proof. intros Hne Heq. by apply formatKeyEntry_inj in Heq. Qed.

Lemma formatKeyEntry_set_Parent {P} (st : MemcachedSessionHandler (User:=User) P) p k :
  formatKeyEntry (set_Parent st p) k = formatKeyEntry st k.
Proof. reflexivity. Qed.

Lemma formatKeyEntry_set_Client {P} (st : MemcachedSessionHandler (User:=User) P) c k :
  formatKeyEntry (set_Client st c) k = formatKeyEntry st k.
Proof. reflexivity. Qed.

Lemma formatKeyEntry_setMemcached {P} (st : MemcachedSessionHandler (User:=User) P) k k' v :
  formatKeyEntry (setMemcached userStr st k' v) k = formatKeyEntry st k.
Proof. unfold setMemcached. by destruct (legalKey _). Qed.

Lemma Client_setMemcached_ne {P} (st : MemcachedSessionHandler (User:=User) P) k v x :
  x <> formatKeyEntry st k ->
  Client (setMemcached userStr st k v) !! x = Client st !! x.
Proof.
  intros Hne. unfold setMemcached. destruct (legalKey _); [|done].
  simpl. by rewrite lookup_insert_ne.
Qed.

Lemma Parent_setMemcached {P} (st : MemcachedSessionHandler (User:=User) P) k v :
  Parent (setMemcached userStr st k v) = Parent st.
Proof. unfold setMemcached. by destruct (legalKey _). Qed.

Create Rewrite HintDb mcdb.
Local Hint Rewrite @formatKeyEntry_set_Parent @formatKeyEntry_set_Client
  @formatKeyEntry_setMemcached @Parent_setMemcached : mcdb.

Lemma hidden_step (tok : string) st (op : MCOp) :
  hidden tok st ->
  (match op with OpRevoke _ => fresh_draw st | _ => True end) ->
  (match op with OpCreate _ _ key _ => key <> tok | _ => True end) ->
  hidden tok (mc_step userStr st op).
Proof.
  intros [Hp Hc] Hfresh Hcreate. unfold hidden.
  destruct op as [key|now user key d|user|now|key|k]; simpl in Hfresh, Hcreate |- *.
  - (* GetData *)
    unfold MC_GetData. cbn [GetData InMemoryHandler]. unfold IM_GetData.
    destruct (Client st !! formatKeyEntry st key) as [item|] eqn:Hitem.
    + destruct (parseJSONData st item); simpl; [split; done|].
      destruct (Parent st !! key); simpl; split; done.
    + destruct (Parent st !! key) as [pd|] eqn:Hpk; simpl; autorewrite with mcdb;
        simpl; [|split; done].
      assert (key <> tok) by congruence.
      split; [done|]. rewrite Client_setMemcached_ne; [done|].
      autorewrite with mcdb. by apply not_eq_sym, formatKeyEntry_ne.
  - (* CreateEntry *)
    unfold MC_CreateEntry. cbn [CreateEntry InMemoryHandler]. unfold IM_CreateEntry.
    destruct (Parent st !! key) eqn:Hpk; simpl; autorewrite with mcdb; simpl;
      [split; done|].
    split.
    + rewrite lookup_insert_ne; done.
    + rewrite Client_setMemcached_ne; [done|].
      autorewrite with mcdb. by apply not_eq_sym, formatKeyEntry_ne.
  - (* DeleteEntriesForUser: fresh identifier *)
    unfold MC_DeleteEntriesForUser. cbn [DeleteEntriesForUser InMemoryHandler].
    unfold IM_DeleteEntriesForUser. simpl. split.
    + apply map_lookup_filter_None_2. by left.
    + apply Hfresh.
  - (* DeleteInvalidKeys *)
    unfold MC_DeleteInvalidKeys. cbn [DeleteInvalidKeys InMemoryHandler].
    unfold IM_DeleteInvalidKeys. simpl. split; [|done].
    apply map_lookup_filter_None_2. by left.
  - (* DeleteKey *)
    unfold MC_DeleteKey. cbn [DeleteKey InMemoryHandler]. unfold IM_DeleteKey.
    destruct (legalKey _); simpl; (split; [apply lookup_delete_None; by right|]);
      [apply lookup_delete_None; by right|done].
  - (* memcached expiry *)
    unfold mc_expire. simpl. split; [done|]. apply lookup_delete_None. by right.
Qed.

Lemma hidden_run (tok : string) (ops : list MCOp) st :
  hidden tok st -> run_fresh userStr st ops -> no_create tok ops ->
  hidden tok (mc_run userStr st ops).
Proof.
  revert st. induction ops as [|op ops IH]; intros st Hh Hf Hn; [done|].
  destruct Hf as [Hf1 Hf2]. apply Forall_cons in Hn as [Hn1 Hn2].
  unfold mc_run. simpl. apply IH; [|done|done].
  apply hidden_step; done.
Qed.

Lemma hidden_get (tok : string) st :
  hidden tok st -> (MC_GetData userStr st tok).2 = Fail ErrKeyNotFound.
Proof.
  intros [Hp Hc]. unfold MC_GetData. rewrite Hc.
  cbn [GetData InMemoryHandler]. unfold IM_GetData. by rewrite Hp.
Qed.

(** C2 (amended): if the identifier drawn by [DeleteEntriesForUser] is
    fresh (no memcached key carries it), the revocation leaves memcached
    physically unchanged, yet every later [GetData] of a token that belonged
    to the revoked user (or was absent) returns [ErrKeyNotFound], after any
    further operations that do not re-create the token and whose own
    revocations also draw fresh identifiers. *)
Theorem C2_fresh_generation_hides_revoked st (user : User) (tok : string) (ops : list MCOp) :
  fresh_draw st ->
  (forall rec, Parent st !! tok = Some rec -> SKD_User rec = user) ->
  run_fresh userStr (MC_DeleteEntriesForUser st user).1 ops ->
  no_create tok ops ->
  Client (MC_DeleteEntriesForUser st user).1 = Client st /\
  (MC_GetData userStr (mc_run userStr (MC_DeleteEntriesForUser st user).1 ops) tok).2
    = Fail ErrKeyNotFound.
Proof.
  intros Hfresh Howner Hrun Hno. split; [reflexivity|].
  apply hidden_get, hidden_run; [|done|done].
  unfold MC_DeleteEntriesForUser. cbn [DeleteEntriesForUser InMemoryHandler].
  unfold IM_DeleteEntriesForUser, hidden. simpl. split.
  - apply map_lookup_filter_None_2. right. intros rec Hrec. simpl.
    intros Hne. apply Hne. by apply Howner.
  - apply Hfresh.
Qed.

(** C9: the decorator's [DeleteInvalidKeys] only sweeps the parent: the
    memcached contents, prefix and identifier are unchanged, so a token
    whose entry is stored under the current identifier (and parses) is
    still returned by [GetData], whatever the sweep removed from the
    parent. *)
Theorem C9_sweep_leaves_cache st (now : Time) (tok : string) (item : CacheItem)
    (data : SessionKeyData User) :
  Client (MC_DeleteInvalidKeys now st).1 = Client st /\
  SessionPrefix (MC_DeleteInvalidKeys now st).1 = SessionPrefix st /\
  currentSessionKeyIdentifier (MC_DeleteInvalidKeys now st).1 = currentSessionKeyIdentifier st /\
  Parent (MC_DeleteInvalidKeys now st).1 = (IM_DeleteInvalidKeys now (Parent st)).1 /\
  (Client st !! formatKeyEntry st tok = Some item ->
   parseJSONData st item = Some data ->
   (MC_GetData userStr (MC_DeleteInvalidKeys now st).1 tok).2 = Ok data).
Proof.
  split; [done|split; [done|split; [done|split; [done|]]]].
  intros Hitem Hparse. unfold MC_GetData.
  change (formatKeyEntry (MC_DeleteInvalidKeys now st).1 tok) with (formatKeyEntry st tok).
  change (Client (MC_DeleteInvalidKeys now st).1) with (Client st).
  rewrite Hitem.
  change (parseJSONData (MC_DeleteInvalidKeys now st).1 item) with (parseJSONData st item).
  by rewrite Hparse.
Qed.

End Cache.

End Claims.

(** * Further properties of the code *)

Section Extras.
Context {User : Type} `{!EqDecision User}.
Context {SC : SQLColumns}.
Implicit Types (h : gmap string (SessionKeyData User)).

(** ** Helpers *)

Lemma size_filter_split {A} (P Q : string * A -> Prop)
    `{!forall x, Decision (P x)} `{!forall x, Decision (Q x)} (m : gmap string A) :
  (forall x, Q x <-> ~ P x) ->
  size m = (size (filter P m) + size (filter Q m))%nat.
Proof.
  intros HQ.
  assert (Hf : filter Q m = filter (fun v => ~ P v) m).
  { apply map_filter_ext. intros i x _. apply HQ. }
  rewrite Hf. rewrite <- map_size_disj_union by apply map_disjoint_filter_complement.
  by rewrite map_filter_union_complement.
Qed.

Lemma lookup_filter_if {A} (P : string * A -> Prop) `{!forall x, Decision (P x)}
    (m : gmap string A) (k : string) :
  filter P m !! k =
    match m !! k with
    | Some v => if bool_decide (P (k, v)) then Some v else None
    | None => None
    end.
Proof.
  rewrite map_lookup_filter. destruct (m !! k) as [v|]; [|done]. simpl.
  case_bool_decide.
  - by rewrite option_guard_True.
  - by rewrite option_guard_False.
Qed.

Lemma EncodeToString_pad (l : list byte) :
  (length l mod 3 <> 0)%nat -> In padChar (String.list_ascii_of_string (EncodeToString l)).
Proof.
  revert l. fix IH 1. intros [|a [|b [|c rest]]] Hlen.
  - cbn in Hlen. congruence.
  - cbn [EncodeToString String.list_ascii_of_string]. right; right; left; reflexivity.
  - cbn [EncodeToString String.list_ascii_of_string]. right; right; right; left; reflexivity.
  - cbn [EncodeToString String.list_ascii_of_string]. do 4 right. apply IH.
    cbn [length] in Hlen.
    replace (S (S (S (length rest)))) with (length rest + 1 * 3)%nat in Hlen by lia.
    by rewrite Nat.Div0.mod_add in Hlen.
Qed.

Lemma padChar_not_url : ~ In padChar (String.list_ascii_of_string URLAlphabet).
Proof.
  cbn. intros H. repeat (destruct H as [H|H]; [discriminate H|]). exact H.
Qed.

Lemma EncodeToString_shape (l : list byte) :
  String.length (EncodeToString l) = (4 * ((length l + 2) / 3))%nat /\
  (url_safe (EncodeToString l) <-> (length l mod 3 = 0)%nat).
Proof.
  split; [apply EncodeToString_length|]. split.
  - intros Hurl. destruct (decide (length l mod 3 = 0)%nat) as [|Hne]; [done|].
    exfalso. apply padChar_not_url. unfold url_safe in Hurl.
    rewrite List.Forall_forall in Hurl. apply Hurl. by apply EncodeToString_pad.
  - apply EncodeToString_url_safe.
Qed.

Lemma IsValidSession_user (now : Time) (db : gmap string (SessionRow (User:=User)))
    (d : Duration) (k : string) :
  (IsValidSession now None db d k).1.2 =
    match db !! k with
    | Some row => if now <? login_time row + d then Some (user_id row) else None
    | None => None
    end.
Proof.
  unfold IsValidSession, isValidSessionFromColumn, CheckSessionFromTime.
  destruct (db !! k) as [row|]; [|done]. simpl.
  by destruct (now <? login_time row + d).
Qed.

(** ** part_002: the session controller *)

(** X1: a successful [CreateAuthSession] over the in-memory handler stores
    [CurrentTimeKeyData now user validDuration] under a key that was not
    stored before, writes the key into the session with [MaxAge =
    validDuration / 1s]; validating that session at any [t <= now +
    validDuration] returns the record with [MaxAge] the whole seconds of
    [(now + validDuration).Sub(t)] (the time left, saturated at the largest
    [time.Duration]), and at any later [t] fails with [ErrInvalidKey] and
    [MaxAge = -1]. *)
Theorem X1_create_auth_session_then_validate (now : Time) (reader : option (nat -> byte))
    (c : SessionController (gmap string (SessionKeyData User))) (sv : SessionValue)
    (user : User) (validDuration : Duration) c' data key sv' maxAge :
  CreateAuthSession now reader c (Ok sv) user validDuration = (c', Ok (data, key, (sv', maxAge))) ->
  Handler c !! key = None /\
  data = CurrentTimeKeyData now user validDuration /\
  Handler c' = <[key := data]> (Handler c) /\
  sv' = SVString key /\ maxAge = Z.quot validDuration 1000000000 /\
  (forall t, t <= now + validDuration ->
     ValidateSession (Handler c') t (Ok sv')
       = (Handler c', Ok data, Some (Z.quot (time_Sub (now + validDuration) t) 1000000000))) /\
  (forall t, now + validDuration < t ->
     ValidateSession (Handler c') t (Ok sv') = (Handler c', Fail ErrInvalidKey, Some (-1))).
Proof.
  unfold CreateAuthSession, AddKey.
  destruct (GenRandomBase64 reader (NumBytes c)) as [k|err]; [|discriminate].
  cbn [CreateEntry InMemoryHandler]. unfold IM_CreateEntry.
  destruct (Handler c !! k) eqn:Hk; [discriminate|].
  intros H. inversion H; subst. clear H.
  do 5 (split; [done|]). split.
  - intros t Ht. unfold ValidateSession. cbn [GetData InMemoryHandler]. unfold IM_GetData.
    cbn [Handler]. rewrite lookup_insert_eq. unfold KeyInvalid. cbn.
    replace (now + validDuration <? t) with false by (symmetry; apply Z.ltb_ge; lia). done.
  - intros t Ht. unfold ValidateSession. cbn [GetData InMemoryHandler]. unfold IM_GetData.
    cbn [Handler]. rewrite lookup_insert_eq. unfold KeyInvalid. cbn.
    replace (now + validDuration <? t) with true by (symmetry; apply Z.ltb_lt; lia). done.
Qed.

(** X2: [EndSession] over the in-memory handler: for a session holding the
    key it deletes the key, returns no error and sets [MaxAge = -1], after
    which validating the same session fails with [ErrKeyNotFound]; a session
    without key is a success that changes nothing; a non-string key value and
    a failing [store.Get] are reported and change nothing. *)
Theorem X2_end_session h (n : Z) (name : string) (key : string) (now : Time) (err : Err) :
  let c := MkSessionController h n name in
  EndSession c (Ok (SVString key)) = (MkSessionController (delete key h) n name, None, Some (-1)) /\
  ValidateSession (delete key h) now (Ok (SVString key)) = (delete key h, Fail ErrKeyNotFound, None) /\
  EndSession c (Ok SVAbsent) = (c, None, None) /\
  EndSession c (Ok SVOther) = (c, Some ErrKeyNotString, None) /\
  EndSession c (Fail err) = (c, Some err, None).
Proof.
  intros c. split; [reflexivity|]. split; [|done].
  unfold ValidateSession. cbn [GetData InMemoryHandler]. unfold IM_GetData.
  by rewrite lookup_delete_eq.
Qed.

(** X3: whatever the handler, [ValidateSession] sets [MaxAge] exactly when
    the lookup succeeded: on success the record is valid at [now] and
    [MaxAge] is the number of whole seconds left, the time left being
    saturated at the largest [time.Duration] ([MaxAge * 1s <= min(ValidUntil
    - now, maxDuration) < (MaxAge + 1) * 1s], so [MaxAge >= 0]); an expired
    record gives
    [ErrInvalidKey] with [MaxAge = -1]; every other failure leaves [MaxAge]
    untouched. *)
Theorem X3_validate_max_age {P} `{!SessionHandler (User:=User) P} (c : P) (now : Time)
    (store_get : result SessionValue) :
  match ValidateSession c now store_get with
  | (_, Ok info, Some m) =>
      KeyValid now (ValidUntil info) = true /\ 0 <= m /\
      m * 1000000000 <= Z.min (ValidUntil info - now) maxDuration < (m + 1) * 1000000000
  | (_, Ok _, None) => False
  | (_, Fail err, Some m) => m = -1 /\ err = ErrInvalidKey
  | (_, Fail _, None) => True
  end.
Proof.
  unfold ValidateSession. destruct store_get as [[|key|]|err]; try exact I.
  destruct (GetData c key) as [c' [info|err]]; [|exact I].
  destruct (KeyInvalid now (ValidUntil info)) eqn:Hinv; [done|].
  unfold KeyValid. rewrite Hinv. unfold KeyInvalid in Hinv. apply Z.ltb_ge in Hinv.
  assert (Hs : time_Sub (ValidUntil info) now = Z.min (ValidUntil info - now) maxDuration)
    by (unfold time_Sub, minDuration, maxDuration; lia).
  rewrite Hs. clear Hs.
  assert (0 <= Z.min (ValidUntil info - now) maxDuration) by (unfold maxDuration; lia).
  rewrite Z.quot_div_nonneg by lia.
  pose proof (Z.div_mod (Z.min (ValidUntil info - now) maxDuration) 1000000000 ltac:(lia)).
  pose proof (Z.mod_pos_bound (Z.min (ValidUntil info - now) maxDuration) 1000000000 ltac:(lia)).
  split; [done|]. split; [apply Z.div_pos; lia|]. lia.
Qed.

(** X4: for a positive [n] up to [maxAlloc] (beyond it [make] panics),
    [GenRandomBase64 n] fails exactly when the
    entropy source fails; otherwise the key has [4 * ceil(n / 3)]
    characters and lies in the URL-safe alphabet exactly when [n] is a
    multiple of 3 (otherwise it ends in '=' padding). *)
Theorem X4_gen_random_base64_shape (n : Z) (f : nat -> byte) :
  0 < n <= maxAlloc ->
  GenRandomBase64 None n = Fail ErrRandom /\
  exists key, GenRandomBase64 (Some f) n = Ok key /\
    String.length key = (4 * ((Z.to_nat n + 2) / 3))%nat /\
    (url_safe key <-> (Z.to_nat n mod 3 = 0)%nat).
Proof.
  intros [Hn _]. unfold GenRandomBase64.
  replace (n <=? 0) with false by (symmetry; apply Z.leb_gt; lia).
  split; [reflexivity|]. eexists. split; [reflexivity|].
  pose proof (EncodeToString_shape (map f (seq 0 (Z.to_nat n)))) as [Hl Hu].
  rewrite length_map, length_seq in Hl, Hu. by split.
Qed.

(** X5: [RandomBase64 n] (auth.go) has no default: it panics for [n < 0]
    and for [n > maxAlloc]; in between it returns the reader's error when
    the read fails, and otherwise a key of [4 * ceil(n / 3)] characters
    (the empty key for [n = 0]), URL-safe exactly when [n] is a multiple of
    3; [GenerateSessionKey] thus returns the reader's error or a URL-safe
    key of 128 characters. *)
Theorem X5_random_base64 (reader : result (nat -> byte)) (n : Z) :
  (n < 0 \/ maxAlloc < n -> RandomBase64 reader n = Panics) /\
  (forall err, 0 <= n <= maxAlloc -> reader = Fail err ->
     RandomBase64 reader n = Returns (Fail err)) /\
  (forall f, 0 <= n <= maxAlloc -> reader = Ok f ->
     exists key, RandomBase64 reader n = Returns (Ok key) /\
       String.length key = (4 * ((Z.to_nat n + 2) / 3))%nat /\
       (url_safe key <-> (Z.to_nat n mod 3 = 0)%nat)) /\
  (forall err, reader = Fail err -> GenerateSessionKey reader = Returns (Fail err)) /\
  (forall f, reader = Ok f ->
     exists key, GenerateSessionKey reader = Returns (Ok key) /\
       String.length key = 128%nat /\ url_safe key).
Proof.
  assert (Hin : forall m, 0 <= m <= maxAlloc -> (m <? 0) || (maxAlloc <? m) = false).
  { intros m Hm. apply orb_false_iff. split; [apply Z.ltb_ge|apply Z.ltb_ge]; lia. }
  assert (Hok : forall f m, 0 <= m <= maxAlloc -> reader = Ok f ->
     exists key, RandomBase64 reader m = Returns (Ok key) /\
       String.length key = (4 * ((Z.to_nat m + 2) / 3))%nat /\
       (url_safe key <-> (Z.to_nat m mod 3 = 0)%nat)).
  { intros f m Hm ->. unfold RandomBase64, RandomBytes. rewrite (Hin m Hm).
    eexists. split; [reflexivity|].
    pose proof (EncodeToString_shape (map f (seq 0 (Z.to_nat m)))) as [Hl Hu].
    rewrite length_map, length_seq in Hl, Hu. by split. }
  split; [|split; [|split; [intros f; apply Hok|split]]].
  - intros Hn. unfold RandomBase64, RandomBytes.
    replace ((n <? 0) || (maxAlloc <? n)) with true; [done|].
    symmetry. apply orb_true_iff. destruct Hn; [left|right]; apply Z.ltb_lt; lia.
  - intros err Hn ->. unfold RandomBase64, RandomBytes. by rewrite (Hin n Hn).
  - intros err ->. reflexivity.
  - intros f Hf. destruct (Hok f 96 ltac:(unfold maxAlloc; lia) Hf) as [key [Hk [Hl Hu]]].
    exists key. unfold GenerateSessionKey. split; [done|]. split; [done|].
    by apply Hu.
Qed.

(** X18: [AddKey] over the in-memory handler either succeeds, having
    stored [CurrentTimeKeyData now user validDuration] under a key that was
    not stored before (and nothing else), or fails and leaves the
    controller, hence the store, unchanged. *)
Theorem X18_add_key_store (now : Time) (reader : option (nat -> byte))
    (c : SessionController (gmap string (SessionKeyData User))) (user : User)
    (validDuration : Duration) :
  match AddKey now reader c user validDuration with
  | (c', Ok (data, key)) =>
      Handler c !! key = None /\ data = CurrentTimeKeyData now user validDuration /\
      c' = MkSessionController (<[key := data]> (Handler c)) (NumBytes c) (SessionName c)
  | (c', Fail _) => c' = c
  end.
Proof.
  unfold AddKey. destruct (GenRandomBase64 reader (NumBytes c)) as [k|err]; [|done].
  cbn [CreateEntry InMemoryHandler]. unfold IM_CreateEntry.
  destruct (Handler c !! k) eqn:Hk; simpl.
  - by destruct c.
  - done.
Qed.

(** ** part_000: the in-memory bulk deletions *)

(** X16: [DeleteEntriesForUser] of the in-memory handler removes exactly
    the entries of [user], keeps every other entry unchanged, and returns
    the number of entries [user] had. *)
Theorem X16_in_memory_delete_for_user h (user : User) (k : string) :
  (IM_DeleteEntriesForUser h user).1 !! k =
    match h !! k with
    | Some v => if bool_decide (SKD_User v = user) then None else Some v
    | None => None
    end /\
  (IM_DeleteEntriesForUser h user).2
    = Ok (Z.of_nat (size (filter (fun kv : string * SessionKeyData User => SKD_User kv.2 = user) h))).
Proof.
  split.
  - simpl. rewrite lookup_filter_if. destruct (h !! k) as [v|]; [|done]. simpl.
    by case_bool_decide; case_bool_decide.
  - simpl. f_equal.
    pose proof (size_filter_split (fun kv : string * SessionKeyData User => SKD_User kv.2 = user)
                  (fun kv : string * SessionKeyData User => ~ SKD_User kv.2 = user) h
                  ltac:(done)).
    lia.
Qed.

(** X17: [DeleteInvalidKeys] of the in-memory handler removes exactly the
    entries with [KeyInvalid now ValidUntil], keeps every other entry
    unchanged, and returns the number of invalid entries. *)
Theorem X17_in_memory_delete_invalid h (now : Time) (k : string) :
  (IM_DeleteInvalidKeys now h).1 !! k =
    match h !! k with
    | Some v => if KeyInvalid now (ValidUntil v) then None else Some v
    | None => None
    end /\
  (IM_DeleteInvalidKeys now h).2
    = Ok (Z.of_nat (size (filter (fun kv : string * SessionKeyData User =>
                                    KeyInvalid now (ValidUntil kv.2) = true) h))).
Proof.
  split.
  - simpl. rewrite lookup_filter_if. destruct (h !! k) as [v|]; [|done]. simpl.
    by destruct (KeyInvalid now (ValidUntil v)).
  - simpl. f_equal.
    pose proof (size_filter_split (fun kv : string * SessionKeyData User =>
                                     KeyInvalid now (ValidUntil kv.2) = true)
                  (fun kv : string * SessionKeyData User =>
                     KeyInvalid now (ValidUntil kv.2) = false) h
                  ltac:(intros x; simpl; destruct (KeyInvalid now (ValidUntil x.2)); split; intros; congruence)).
    lia.
Qed.

(** ** The session connector (auth.go, sql.go, mysql.go) *)



(** ** memcached.go: the cache of the decorator *)

Section Cache2.
Context (userStr : User -> string).
Implicit Types (st : MemcachedSessionHandler (User:=User) (gmap string (SessionKeyData User))).

Lemma parseJSONData_formatJSONData {P} (st : MemcachedSessionHandler (User:=User) P)
    (data : SessionKeyData User) :
  ConvertUser st (userStr (SKD_User data)) = Some (SKD_User data) ->
  parseJSONData st (formatJSONData userStr data) =
    Some (NewSessionKeyData (SKD_User data)
            (CreationTime data - CreationTime data mod 1000000000)
            (ValidUntil data - ValidUntil data mod 1000000000)).
Proof.
  intros Hconv. unfold parseJSONData, formatJSONData. simpl. rewrite Hconv.
  unfold parseTime, formatTime.
  rewrite (Z.mod_eq (CreationTime data)), (Z.mod_eq (ValidUntil data)) by lia.
  do 2 f_equal; lia.
Qed.

(** X6: when [ConvertUser] inverts [fmt.Sprintf("%v", user)] on the user,
    the JSON form written to memcached parses back to the record with both
    times truncated to the whole second below (the layout
    "2006-01-02 15:04:05" has no fraction); the round trip is exact
    precisely when both times are whole seconds, and the cached
    [ValidUntil] lies in [(ValidUntil - 1s, ValidUntil]]. *)
Theorem X6_json_round_trip {P} (st : MemcachedSessionHandler (User:=User) P)
    (data : SessionKeyData User) :
  ConvertUser st (userStr (SKD_User data)) = Some (SKD_User data) ->
  parseJSONData st (formatJSONData userStr data) =
    Some (NewSessionKeyData (SKD_User data)
            (CreationTime data - CreationTime data mod 1000000000)
            (ValidUntil data - ValidUntil data mod 1000000000)) /\
  ValidUntil data - 1000000000 < ValidUntil data - ValidUntil data mod 1000000000
    <= ValidUntil data /\
  (parseJSONData st (formatJSONData userStr data) = Some data <->
     CreationTime data mod 1000000000 = 0 /\ ValidUntil data mod 1000000000 = 0).
Proof.
  intros Hconv.
  pose proof (parseJSONData_formatJSONData st data Hconv) as Hrt.
  split; [exact Hrt|]. split.
  - pose proof (Z.mod_pos_bound (ValidUntil data) 1000000000 ltac:(lia)). lia.
  - rewrite Hrt. destruct data as [u c v]. simpl. split.
    + intros H. injection H as Hc Hv. lia.
    + intros [Hc Hv]. rewrite Hc, Hv. do 2 f_equal; lia.
Qed.


(** X9: when the identifier drawn by [DeleteEntriesForUser] is fresh, the
    revocation empties the cache for every user, not only the revoked one:
    afterwards [GetData] of any key is a memcached miss and returns the
    parent's answer. *)
Theorem X9_revocation_flushes_cache st (user : User) (k : string) :
  fresh_draw st ->
  (MC_GetData userStr (MC_DeleteEntriesForUser st user).1 k).2 =
  (IM_GetData (Parent (MC_DeleteEntriesForUser st user).1) k).2.
Proof.
  intros Hf. unfold MC_GetData.
  change (Client (MC_DeleteEntriesForUser st user).1) with (Client st).
  change (formatKeyEntry (MC_DeleteEntriesForUser st user).1 k)
    with (formatKeyEntry (updateCurrentSessionKeyIdentifier st) k).
  rewrite Hf. cbn [GetData InMemoryHandler]. unfold IM_GetData.
  by destruct (Parent (MC_DeleteEntriesForUser st user).1 !! k).
Qed.

Lemma legal_client_setMemcached {P} (st : MemcachedSessionHandler (User:=User) P) k v :
  legal_client st -> legal_client (setMemcached userStr st k v).
Proof.
  intros Hl x item. unfold setMemcached.
  destruct (legalKey (formatKeyEntry st k)) eqn:Hk; [|apply Hl].
  simpl. destruct (decide (x = formatKeyEntry st k)) as [->|Hne]; [done|].
  rewrite lookup_insert_ne by done. apply Hl.
Qed.

Lemma legal_client_step st (op : MCOp) :
  legal_client st -> legal_client (mc_step userStr st op).
Proof.
  intros Hl. destruct op as [key|now user key d|user|now|key|k]; simpl.
  - unfold MC_GetData. cbn [GetData InMemoryHandler]. unfold IM_GetData.
    destruct (Client st !! formatKeyEntry st key) as [item|].
    + destruct (parseJSONData st item); [done|].
      by destruct (Parent st !! key).
    + destruct (Parent st !! key); simpl; [|done].
      by apply legal_client_setMemcached.
  - unfold MC_CreateEntry. cbn [CreateEntry InMemoryHandler]. unfold IM_CreateEntry.
    destruct (Parent st !! key); simpl; [done|].
    by apply legal_client_setMemcached.
  - done.
  - done.
  - unfold MC_DeleteKey. cbn [DeleteKey InMemoryHandler]. unfold IM_DeleteKey.
    destruct (legalKey (formatKeyEntry st key)); [|done].
    intros x item. simpl. intros Hx. apply lookup_delete_Some in Hx as [_ Hx]. by apply (Hl x item).
  - intros x item. unfold mc_expire. simpl. intros Hx.
    apply lookup_delete_Some in Hx as [_ Hx]. by apply (Hl x item).
Qed.

(** X19: starting from [NewMemcachedSessionHandler] (memcached empty),
    every sequence of operations of the decorator over the in-memory
    handler (gets, creates, revocations, sweeps, logouts, expiries) leaves
    only keys that gomemcache accepts in memcached; so a lookup of a key it
    refuses finds nothing, which is why a get of such a key takes the miss
    path. *)
Theorem X19_memcached_keys_legal (parent : gmap string (SessionKeyData User))
    (r : nat -> nat) (convertUser : string -> option User) (ops : list MCOp) (k : string) :
  legal_client (mc_run userStr (NewMemcachedSessionHandler parent r convertUser) ops) /\
  (legalKey k = false ->
   Client (mc_run userStr (NewMemcachedSessionHandler parent r convertUser) ops) !! k = None).
Proof.
  assert (Hl : legal_client (mc_run userStr (NewMemcachedSessionHandler parent r convertUser) ops)).
  { assert (H0 : forall st, legal_client st ->
              legal_client (fold_left (mc_step userStr) ops st)).
    { induction ops as [|op ops IH]; intros st Hst; [done|].
      simpl. apply IH. by apply legal_client_step. }
    apply H0. intros x item Hx. simpl in Hx. by rewrite lookup_empty in Hx. }
  split; [exact Hl|]. intros Hk.
  destruct (Client _ !! k) as [item|] eqn:Hi; [|done].
  apply Hl in Hi. congruence.
Qed.

End Cache2.

End Extras.

(** * Concrete instances: witnesses and counterexamples *)

#[local] Existing Instance MySQLColumns.

Lemma C1_witness :
  (ValidateSession h0 200 (Ok (SVString "k"))).1.2 = Fail ErrInvalidKey /\
  (ValidateSession (∅ : gmap string (SessionKeyData nat)) 0 (Ok (SVString "k"))).1.2
    = Fail ErrKeyNotFound /\
  (IM_DeleteInvalidKeys 150 h0).1 !! "k" = None /\
  (ValidateSession (IM_DeleteInvalidKeys 150 h0).1 50 (Ok (SVString "k"))).1.2
    = Fail ErrKeyNotFound.
Proof.
  destruct (C1_validate_expired_then_swept (User:=nat)) as [A [B C]].
  split; [|split].
  - apply (A h0 "k" rec0 200); reflexivity.
  - apply B; reflexivity.
  - apply (C h0 "k" rec0 150 50); reflexivity.
Defined.

(** At the boundary instant [now = validUntil], [KeyValid] accepts while
    [CheckSessionFromTime] (reference 0, duration 100) rejects. *)
Lemma C3_boundary_disagreement :
  KeyValid 100 100 = true /\ (CheckSessionFromTime 100 100 0).1 = false.
Proof. split; reflexivity. Qed.

(** Creating an entry under a token that is already stored fails; and over
    MySQL's [DATETIME] columns the SQL handler, created at 1.5 s, stores a
    record other than the one it returns. *)
Lemma C4_duplicate_token :
  IM_CreateEntry 5 h0 8%nat "k" 10 = (h0, Fail ErrKeyAlreadyExists) /\
  exists db' data,
    SQL_CreateEntry 1500000000 None (∅ : gmap string (SessionKeyData nat)) 8%nat "k" 10
      = (db', Ok data) /\
    db' !! "k" <> Some data.
Proof.
  split; [reflexivity|].
  eexists _, _. split; [vm_compute; reflexivity|]. vm_compute. discriminate.
Qed.

(** In memory, a fresh token stores the exact record; over MySQL, "K"
    collides with the stored "k", and a fresh "j" created at 1.5 s is
    stored with both times rounded to 2 s. *)
Lemma C4_witness :
  IM_CreateEntry 5 (∅ : gmap string (SessionKeyData nat)) 8%nat "k" 10
    = ({["k" := NewSessionKeyData 8%nat 5 15]}, Ok (NewSessionKeyData 8%nat 5 15)) /\
  SQL_CreateEntry 1500000000 None h0 8%nat "K" 10 = (h0, Fail (ErrDB 1062)) /\
  SQL_CreateEntry 1500000000 None h0 8%nat "j" 10
    = (<["j" := NewSessionKeyData 8%nat 2000000000 2000000000]> h0,
       Ok (NewSessionKeyData 8%nat 1500000000 1500000010)).
Proof.
  destruct (C4_create_fresh_token (User:=nat) ∅ 5 8%nat "k" 10) as [A _].
  destruct (C4_create_fresh_token (User:=nat) h0 1500000000 8%nat "K" 10)
    as (_ & _ & _ & D & _).
  destruct (C4_create_fresh_token (User:=nat) h0 1500000000 8%nat "j" 10)
    as (_ & _ & F & _).
  split; [|split].
  - apply A. reflexivity.
  - apply (D h0 "k" rec0); reflexivity.
  - etransitivity.
    + apply F. intros k' rec Hk. unfold h0 in Hk.
      apply lookup_singleton_Some in Hk as [<- _]. reflexivity.
    + reflexivity.
Defined.

(** A negative [validDuration] is accepted and yields
    [ValidUntil < CreationTime]. *)
Lemma C5_negative_duration :
  exists h' (data : SessionKeyData nat),
    IM_CreateEntry 0 ∅ 7%nat "k" (-1) = (h', Ok data) /\
    ValidUntil data < CreationTime data.
Proof. eexists _, _. split; [reflexivity|simpl; lia]. Qed.

Lemma C5_witness :
  ValidUntil (NewSessionKeyData 7%nat 0 10) - CreationTime (NewSessionKeyData 7%nat 0 10) = 10 /\
  (CreationTime (NewSessionKeyData 7%nat 0 10) <= ValidUntil (NewSessionKeyData 7%nat 0 10)
     <-> 0 <= 10).
Proof.
  destruct (C5_created_interval (User:=nat) ∅ 0 7%nat "k" 10 None) as [A _].
  apply (A {["k" := NewSessionKeyData 7%nat 0 10]}). reflexivity.
Defined.

(** [ValidateSession] has no touch mode: a successful validation at time 50
    of a record created at 0 leaves it with [ValidUntil = 100], not
    [50 + 100]. *)
Lemma C6_controller_never_touches :
  ValidateSession h0 50 (Ok (SVString "k")) = (h0, Ok rec0, Some 0) /\
  ValidUntil rec0 <> 50 + (ValidUntil rec0 - CreationTime rec0).
Proof. split; [reflexivity|simpl; lia]. Qed.

(** Over MySQL, at 1.7 s with a 2 s lifetime: both policies accept the row
    (login at 0, last seen at 40 ns), the touch stores [last_seen] rounded
    to 2 s, and [ValidateSession] over the decorator leaves the state its
    [GetData] leaves (the record now cached). *)
Lemma C6_witness :
  (IsValidSession 1700000000 None db0 2000000000 "k").1.2 = Some 7%nat /\
  (IsValidSessionLastSeen 1700000000 None db0 2000000000 "k").1.2 = Some 7%nat /\
  (isValidSessionFromColumn 1700000000 None db0 2000000000 "k" last_seen_col).1.1 !! "k"
    = Some (MkSessionRow 7%nat 0 2000000000) /\
  (@ValidateSession _ _ (MemcachedHandler (User:=nat) pretty)
     (NewMemcachedSessionHandler h0 draws (fun _ => Some 7%nat)) 1700000000
     (Ok (SVString "k"))).1.1
    = (MC_GetData pretty (NewMemcachedSessionHandler h0 draws (fun _ => Some 7%nat)) "k").1.
Proof.
  destruct (C6_two_policies_only_in_connector (User:=nat) 1700000000 db0 2000000000 "k"
              row0 eq_refl) as (A & B & C & D & _).
  split; [|split; [|split]].
  - rewrite A. reflexivity.
  - rewrite B. reflexivity.
  - etransitivity; [apply (C last_seen_col); reflexivity|]. reflexivity.
  - exact (D _ (MemcachedHandler (User:=nat) pretty)
             (NewMemcachedSessionHandler h0 draws (fun _ => Some 7%nat)) (Ok (SVString "k"))).
Defined.

Lemma C7_witness :
  isValidSessionFromColumn 50 (Some (ErrDB 3)) db0 100 "k" login_time_col
    = (db0, Some 7%nat, Some (ErrDB 3)) /\
  MYSQL_IsValidSession 50 (Some (ErrDB 3)) db0 100 "k" = (db0, Some 7%nat, Some (ErrDB 3)).
Proof.
  destruct (C7_touch_failure_keeps_user (User:=nat) 50 (ErrDB 3) db0 100 "k" row0 eq_refl)
    as [A B].
  split.
  - apply (A login_time_col). reflexivity.
  - apply B. reflexivity.
Defined.

Lemma C10_witness :
  GenRandomBase64 (Some (fun _ => Byte.x00)) 0
    = GenRandomBase64 (Some (fun _ => Byte.x00)) DefaultRandomByteLength /\
  (exists key, GenRandomBase64 (Some (fun _ => Byte.x00)) 0 = Ok key /\
     String.length key = 64%nat /\ url_safe key).
Proof.
  destruct (C10_nonpositive_length_defaults (User:=nat) 0 (Some (fun _ => Byte.x00)))
    as [A [_ [C _]]]; [lia|].
  split; [exact A|]. apply (C (fun _ => Byte.x00)). reflexivity.
Defined.

(** The generator yields 0 (construction), 1, 0.  Alice's token "k" is
    created (cached under identifier 0); revoking "bob" moves to 1; a get
    miss caches "k" under 1; revoking "alice" draws 0 again, which differs
    from the current 1, and removes "k" from the parent; the next get hits
    the stale entry stored under 0 and returns a record instead of
    [ErrKeyNotFound]. *)
Lemma C2_repeated_identifier_resurrects :
  let st1 := mc_run (fun s => s) mcEmpty [OpCreate 0 "alice" "k" 100; OpRevoke "bob"] in
  let st2 := (MC_GetData (fun s => s) st1 "k").1 in
  let st3 := (MC_DeleteEntriesForUser st2 "alice").1 in
  Client st1 !! formatKeyEntry st1 "k" = None /\
  currentSessionKeyIdentifier st3 <> currentSessionKeyIdentifier st2 /\
  Parent st3 !! "k" = None /\
  (MC_GetData (fun s => s) st3 "k").2 = Ok (NewSessionKeyData "alice" 0 0).
Proof.
  intros st1 st2 st3. split; [vm_compute; reflexivity|].
  split; [vm_compute; discriminate|].
  split; vm_compute; reflexivity.
Qed.

(** A get miss caches Alice's token "k" under identifier 0; revoking
    "alice" draws identifier 1, which no cached key carries: the cached
    entry stays in memcached, yet "k" is no longer returned, also after
    Bob creates and reads his own token. *)
Lemma C2_witness :
  let st := (MC_GetData (fun s => s) mcA "k").1 in
  Client st !! "skey:0:k"%string <> None /\
  Client (MC_DeleteEntriesForUser st "alice").1 = Client st /\
  (MC_GetData (fun s => s)
     (mc_run (fun s => s) (MC_DeleteEntriesForUser st "alice").1
        [OpCreate 5 "bob" "j" 10; OpGet "j"; OpGet "k"]) "k").2
    = Fail ErrKeyNotFound.
Proof.
  intros st.
  assert (exists j, Client st = {["skey:0:k" := j]}) as [j Hj]
    by (eexists; vm_compute; reflexivity).
  destruct (C2_fresh_generation_hides_revoked (User:=string) (fun s => s) st "alice" "k"
              [OpCreate 5 "bob" "j" 10; OpGet "j"; OpGet "k"]) as [A B].
  - intros key. rewrite Hj.
    change (formatKeyEntry (updateCurrentSessionKeyIdentifier st) key)
      with ("skey:1:" +:+ key)%string.
    apply lookup_singleton_ne. discriminate.
  - intros rec Hrec. vm_compute in Hrec. injection Hrec as <-. reflexivity.
  - simpl. repeat split.
  - repeat (constructor || discriminate).
  - split; [|split; [exact A|exact B]].
    rewrite Hj, lookup_singleton_eq. discriminate.
Defined.

Lemma C9_witness :
  let stC := mc_run (fun s => s) mcEmpty [OpCreate 0 "alice" "k" 100] in
  (IM_DeleteInvalidKeys 200 (Parent stC)).1 !! "k" = None /\
  (MC_GetData (fun s => s) (MC_DeleteInvalidKeys 200 stC).1 "k").2
    = Ok (NewSessionKeyData "alice" 0 0).
Proof.
  intros stC. split; [vm_compute; reflexivity|].
  destruct (C9_sweep_leaves_cache (User:=string) (fun s => s) stC 200 "k"
              (formatJSONData (fun s => s) recA) (NewSessionKeyData "alice" 0 0))
    as [_ [_ [_ [_ H]]]].
  apply H; vm_compute; reflexivity.
Defined.

(** Instances of the further properties *)

Lemma X1_witness :
  ValidateSession (Handler (MkSessionController {["AAAA" := recT]} 3 "user-session"))
    1000000000000 (Ok (SVString "AAAA"))
  = ({["AAAA" := recT]}, Ok recT, Some 2600).
Proof.
  pose proof (X1_create_auth_session_then_validate (User:=nat) 0 (Some (fun _ => Byte.x00))
              ctrl0 SVAbsent 7%nat 3600000000000
              (MkSessionController {["AAAA" := recT]} 3 "user-session")
              recT "AAAA" (SVString "AAAA") 3600) as H.
  specialize (H ltac:(vm_compute; reflexivity)).
  destruct H as (_ & _ & _ & _ & _ & Hv & _).
  exact (Hv 1000000000000 ltac:(lia)).
Defined.

Lemma X4_witness :
  exists key, GenRandomBase64 (Some (fun _ => Byte.x00)) 2 = Ok key /\
    String.length key = 4%nat /\ ~ url_safe key.
Proof.
  destruct (X4_gen_random_base64_shape 2 (fun _ => Byte.x00) ltac:(unfold maxAlloc; lia))
    as [_ [key [Hk [Hl Hu]]]].
  exists key. split; [exact Hk|]. split; [exact Hl|].
  intros Hs. apply Hu in Hs. discriminate Hs.
Defined.

Lemma X6_witness :
  parseJSONData mcEmpty (formatJSONData (fun s => s) (NewSessionKeyData "alice" 1500000000 3600500000000))
  = Some (NewSessionKeyData "alice" 1000000000 3600000000000).
Proof.
  destruct (X6_json_round_trip (User:=string) (fun s => s) mcEmpty
              (NewSessionKeyData "alice" 1500000000 3600500000000) eq_refl) as [H _].
  rewrite H. reflexivity.
Defined.


Lemma X9_witness :
  (MC_GetData (fun s => s)
     (MC_DeleteEntriesForUser (MC_GetData (fun s => s) mcA "k").1 "bob").1 "k").2 = Ok recA.
Proof.
  rewrite (X9_revocation_flushes_cache (User:=string) (fun s => s)
             (MC_GetData (fun s => s) mcA "k").1 "bob" "k").
  - vm_compute. reflexivity.
  - intros key.
    assert (exists j, Client (MC_GetData (fun s => s) mcA "k").1 = {["skey:0:k" := j]}) as [j ->]
      by (eexists; vm_compute; reflexivity).
    change (formatKeyEntry (updateCurrentSessionKeyIdentifier (MC_GetData (fun s => s) mcA "k").1) key)
      with ("skey:1:" +:+ key)%string.
    apply lookup_singleton_ne. discriminate.
Defined.
